(** * FPIDController: a discrete-time PID controller over binary32 floats

    Shallow embedding of [Source/UPIDController/Public/PIDController.h].
    The C++ [float] is IEEE-754 binary32; it is modelled by the executable
    specification of floating-point arithmetic of the Standard Library
    ([SpecFloat]) instantiated at 24 bits of precision and maximal exponent
    128, so that not-a-number, the two zeros and the infinities are all
    present.  Every arithmetic operator rounds to nearest-even on its own
    (no fused multiply-add, no extended intermediate precision).  The
    statements below range over every value of [spec_float], which
    includes every binary32 value; the literals of the worked examples
    are checked to be binary32 values.

    A member function [float F(args)] that reads and writes [this] becomes
    a function from the object before the call to the returned value paired
    with the object after the call. *)

From Stdlib Require Import ZArith Bool.
From Stdlib Require Import Floats.SpecFloat.

(** ** binary32 *)

Module Float32.

Definition prec : Z := 24.
Definition emax : Z := 128.

Definition float : Type := spec_float.

Definition add : float -> float -> float := SFadd prec emax.
Definition sub : float -> float -> float := SFsub prec emax.
Definition mul : float -> float -> float := SFmul prec emax.
Definition div : float -> float -> float := SFdiv prec emax.
Definition neg : float -> float := SFopp.
Definition abs : float -> float := SFabs.

(** The comparison operators [==] and [<] of C++ on floats: both are
    false as soon as one side is not a number, and [==] identifies the
    two zeros. *)
Definition eqb : float -> float -> bool := SFeqb.
Definition ltb : float -> float -> bool := SFltb.
Definition leb : float -> float -> bool := SFleb.

(** The literal [0.0f] (also written [0.f]). *)
Definition zero : float := S754_zero false.

Definition nan : float := S754_nan.

(** The binary32 value of an integer literal. *)
Definition of_Z (z : Z) : float := binary_normalize prec emax z 0 false.

(** The sign bit; not-a-number carries none in this model. *)
Definition signbit (x : float) : bool :=
  match x with
  | S754_zero s | S754_infinity s | S754_finite s _ _ => s
  | S754_nan => false
  end.

End Float32.

Import Float32.

Declare Scope f32_scope.
Delimit Scope f32_scope with f32.
Bind Scope f32_scope with float.

Infix "+" := add : f32_scope.
Infix "-" := sub : f32_scope.
Infix "*" := mul : f32_scope.
Infix "/" := div : f32_scope.
Notation "- x" := (neg x) : f32_scope.
Infix "==" := eqb (at level 70, no associativity) : f32_scope.
Infix "<" := ltb : f32_scope.
Infix "<=" := leb : f32_scope.

Local Open Scope f32_scope.

(** ** The engine's math helpers used by the controller *)

Module FMath.

(** [FMath::IsNaN]: the is-not-a-number predicate. *)
Definition IsNaN (x : float) : bool :=
  match x with
  | S754_nan => true
  | _ => false
  end.

(** Modelled from the spec: [FMath::Max] and [FMath::Min] belong to the
    engine's math header, which is not part of this repository; the spec
    only names them [max] and [min].  They are taken as the
    comparison-based selections on floats: the first argument when it
    is strictly on the wanted side of the second, the second argument
    otherwise (so also when the two are unordered). *)
Definition Max (a b : float) : float := if b < a then a else b.
Definition Min (a b : float) : float := if a < b then a else b.

(** Modelled from the spec: [FMath::Clamp] belongs to the engine's math
    header, which is not part of this repository; the spec gives
    [clamp(x, lo, hi) = max(lo, min(x, hi))]. *)
Definition Clamp (x lo hi : float) : float := Max lo (Min x hi).

End FMath.

Import FMath.

(** ** The controller *)

(** [struct FPIDController]: the four public tunables followed by the two
    private error values. *)
Record FPIDController : Type := mkFPIDController {
  P : float;          (* Proportional gain *)
  I : float;          (* Integral gain *)
  D : float;          (* Derivative gain *)
  MaxOutAbs : float;  (* Max output (as absolute value) *)
  PrevErr : float;    (* Previous step error value *)
  IErr : float        (* Integral error *)
}.

(** Assignments to the two private members. *)
Definition set_PrevErr (this : FPIDController) (v : float) : FPIDController :=
  mkFPIDController (P this) (I this) (D this) (MaxOutAbs this) v (IErr this).

Definition set_IErr (this : FPIDController) (v : float) : FPIDController :=
  mkFPIDController (P this) (I this) (D this) (MaxOutAbs this) (PrevErr this) v.

(** [void FPIDController::Reset()] *)
Definition Reset (this : FPIDController) : FPIDController :=
  let this := set_PrevErr this zero in
  let this := set_IErr this zero in
  this.

(** [FPIDController::FPIDController()]: no initialization; every member
    keeps whatever the storage [mem] of the object held. *)
Definition FPIDController_default (mem : FPIDController) : FPIDController :=
  mem.

(** [FPIDController::FPIDController(InP, InI, InD, InMaxOutAbs)]: the
    member initializer list writes the four tunables into the storage
    [mem] of the object (whose prior contents are indeterminate), and the
    body calls [Reset]. *)
Definition FPIDController_ctor (mem : FPIDController)
    (InP InI InD InMaxOutAbs : float) : FPIDController :=
  let this :=
    mkFPIDController InP InI InD InMaxOutAbs (PrevErr mem) (IErr mem) in
  Reset this.

(** [float FPIDController::Update(InError, InDeltaTime)] *)
Definition Update (this : FPIDController) (InError InDeltaTime : float)
    : float * FPIDController :=
  if (InDeltaTime == zero) || IsNaN InError then (zero, this)
  else
    (* Calculate proportional output *)
    let POut := P this * InError in
    (* Calculate integral error / output *)
    let this := set_IErr this (IErr this + InDeltaTime * InError) in
    let IOut := I this * IErr this in
    (* Calculate the derivative error / output *)
    let DErr := (InError - PrevErr this) / InDeltaTime in
    let DOut := D this * DErr in
    (* Set previous error *)
    let this := set_PrevErr this InError in
    (* Calculate the output *)
    let Out := POut + IOut + DOut in
    (* Clamp output *)
    (Clamp Out (- MaxOutAbs this) (MaxOutAbs this), this).

(** [float FPIDController::UpdateAsPID(InError, InDeltaTime)] *)
Definition UpdateAsPID (this : FPIDController) (InError InDeltaTime : float)
    : float * FPIDController :=
  Update this InError InDeltaTime.

(** [float FPIDController::UpdateAsP(InError)] *)
Definition UpdateAsP (this : FPIDController) (InError : float)
    : float * FPIDController :=
  if IsNaN InError then (zero, this)
  else
    (* Calculate proportional output *)
    let Out := P this * InError in
    (* Clamp output *)
    (Clamp Out (- MaxOutAbs this) (MaxOutAbs this), this).

(** [float FPIDController::UpdateAsPD(InError, InDeltaTime)] *)
Definition UpdateAsPD (this : FPIDController) (InError InDeltaTime : float)
    : float * FPIDController :=
  if (InDeltaTime == zero) || IsNaN InError then (zero, this)
  else
    (* Calculate proportional output *)
    let POut := P this * InError in
    (* Calculate the derivative error / output *)
    let DErr := (InError - PrevErr this) / InDeltaTime in
    let DOut := D this * DErr in
    (* Set previous error *)
    let this := set_PrevErr this InError in
    (* Calculate the output *)
    let Out := POut + DOut in
    (* Clamp output *)
    (Clamp Out (- MaxOutAbs this) (MaxOutAbs this), this).

(** [float FPIDController::UpdateAsPI(InError, InDeltaTime)] *)
Definition UpdateAsPI (this : FPIDController) (InError InDeltaTime : float)
    : float * FPIDController :=
  if (InDeltaTime == zero) || IsNaN InError then (zero, this)
  else
    (* Calculate proportional output *)
    let POut := P this * InError in
    (* Calculate integral error / output *)
    let this := set_IErr this (IErr this + InDeltaTime * InError) in
    let IOut := I this * IErr this in
    (* Calculate the output *)
    let Out := POut + IOut in
    (* Clamp output *)
    (Clamp Out (- MaxOutAbs this) (MaxOutAbs this), this).

(** ** Vocabulary of the specification *)

(** The degenerate inputs of the guarded variants: a time step that
    compares equal to zero, or an error that is not a number. *)
Definition degenerate (InError InDeltaTime : float) : bool :=
  (InDeltaTime == zero) || IsNaN InError.

(** The values of the locals [POut], [IOut] and [DOut] of [Update] on the
    object [this], written as the specification writes them. *)
Definition pOut (this : FPIDController) (error : float) : float :=
  P this * error.

Definition integral (this : FPIDController) (error deltaTime : float) : float :=
  IErr this + deltaTime * error.

Definition iOut (this : FPIDController) (error deltaTime : float) : float :=
  I this * integral this error deltaTime.

Definition dOut (this : FPIDController) (error deltaTime : float) : float :=
  D this * ((error - PrevErr this) / deltaTime).

(** The symmetric clamp to [[-outputLimit, outputLimit]]. *)
Definition clampOut (this : FPIDController) (x : float) : float :=
  Clamp x (- MaxOutAbs this) (MaxOutAbs this).

(** The tunables of two objects agree. *)
Definition same_tunables (a b : FPIDController) : Prop :=
  P a = P b /\ I a = I b /\ D a = D b /\ MaxOutAbs a = MaxOutAbs b.

(** The unclamped sums (the local [Out]) of the four variants. *)
Definition rawPID (this : FPIDController) (error deltaTime : float) : float :=
  pOut this error + iOut this error deltaTime + dOut this error deltaTime.

Definition rawPD (this : FPIDController) (error deltaTime : float) : float :=
  pOut this error + dOut this error deltaTime.

Definition rawPI (this : FPIDController) (error deltaTime : float) : float :=
  pOut this error + iOut this error deltaTime.

Definition rawP (this : FPIDController) (error : float) : float :=
  pOut this error.

(** The bound a raw output of magnitude above the limit saturates to. *)
Definition saturated (this : FPIDController) (raw : float) : float :=
  if signbit raw then - MaxOutAbs this else MaxOutAbs this.

(** ** Sequences of calls on one object *)

Inductive Call : Type :=
| CallUpdate (InError InDeltaTime : float)
| CallUpdateAsPID (InError InDeltaTime : float)
| CallUpdateAsP (InError : float)
| CallUpdateAsPD (InError InDeltaTime : float)
| CallUpdateAsPI (InError InDeltaTime : float)
| CallReset.

(** One call: what it returns ([None] for [void]) and the object after. *)
Definition call (k : Call) (this : FPIDController)
    : option float * FPIDController :=
  match k with
  | CallUpdate e dt => let (r, this) := Update this e dt in (Some r, this)
  | CallUpdateAsPID e dt => let (r, this) := UpdateAsPID this e dt in (Some r, this)
  | CallUpdateAsP e => let (r, this) := UpdateAsP this e in (Some r, this)
  | CallUpdateAsPD e dt => let (r, this) := UpdateAsPD this e dt in (Some r, this)
  | CallUpdateAsPI e dt => let (r, this) := UpdateAsPI this e dt in (Some r, this)
  | CallReset => (None, Reset this)
  end.

(** A sequence of calls, oldest first: the returned values in order and
    the object after the last call. *)
Fixpoint run (ks : list Call) (this : FPIDController)
    : list (option float) * FPIDController :=
  match ks with
  | nil => (nil, this)
  | cons k ks =>
      let (r, this) := call k this in
      let (rs, this) := run ks this in
      (cons r rs, this)
  end.

(** The literals of the worked examples. *)
Definition f0 : float := Eval vm_compute in of_Z 0.
Definition f1 : float := Eval vm_compute in of_Z 1.
Definition f2 : float := Eval vm_compute in of_Z 2.
Definition f4 : float := Eval vm_compute in of_Z 4.
Definition f5 : float := Eval vm_compute in of_Z 5.
Definition f1000 : float := Eval vm_compute in of_Z 1000.
Definition f5000 : float := Eval vm_compute in of_Z 5000.

(** Some storage with arbitrary contents, standing for the indeterminate
    memory an object is constructed in. *)
Definition junk : FPIDController :=
  mkFPIDController nan f5 (- f1) nan f1000 (S754_infinity true).

(** An object in the middle of a control sequence, and objects fresh out
    of the parameterized constructor with one gain set to one and the
    limit to 1000. *)
Definition seasoned : FPIDController :=
  mkFPIDController f2 f1 f1 f1000 f5 f4.

Definition fresh_P : FPIDController := FPIDController_ctor junk f1 f0 f0 f1000.
Definition fresh_I : FPIDController := FPIDController_ctor junk f0 f1 f0 f1000.
Definition fresh_D : FPIDController := FPIDController_ctor junk f0 f0 f1 f1000.

(** ** Vocabulary for histories of calls *)

(** Neither infinite nor not-a-number. *)
Definition is_finite (x : float) : bool :=
  match x with
  | S754_zero _ | S754_finite _ _ _ => true
  | S754_infinity _ | S754_nan => false
  end.

Definition is_Reset (k : Call) : bool :=
  match k with
  | CallReset => true
  | _ => false
  end.

(** What one call makes of the integral error [acc]: the calls with an
    integral term add [dt * e] unless the guard fires, [Reset] zeroes it,
    the others pass it on. *)
Definition integrate (acc : float) (k : Call) : float :=
  match k with
  | CallUpdate e dt | CallUpdateAsPID e dt | CallUpdateAsPI e dt =>
      if degenerate e dt then acc else acc + dt * e
  | CallUpdateAsP _ | CallUpdateAsPD _ _ => acc
  | CallReset => zero
  end.

(** What one call makes of the previous error [prev]: the calls with a
    derivative term replace it by their error unless the guard fires,
    [Reset] zeroes it, the others pass it on. *)
Definition remember (prev : float) (k : Call) : float :=
  match k with
  | CallUpdate e dt | CallUpdateAsPID e dt | CallUpdateAsPD e dt =>
      if degenerate e dt then prev else e
  | CallUpdateAsP _ | CallUpdateAsPI _ _ => prev
  | CallReset => zero
  end.

(** [r] lies between [-lim] and [lim], both included. *)
Definition in_range (lim r : float) : bool :=
  (- lim <= r) && (r <= lim).

(** A short history mixing all the calls, and one without [Reset] that
    starts with a not-a-number time step. *)
Definition busy_history : list Call :=
  CallUpdate f5 f1 :: CallUpdateAsPI f2 nan :: CallUpdateAsPD nan f1 ::
  CallUpdateAsP f1000 :: CallUpdateAsPID (S754_infinity false) f2 ::
  CallUpdateAsPD f4 (- zero) :: nil.

Definition poisoned_history : list Call :=
  CallUpdateAsPI f2 nan :: CallUpdate f5 f1 :: CallUpdateAsPD f4 f2 ::
  CallUpdateAsPI f1 f1 :: nil.

(** * Properties *)

(** ** Facts about binary32 *)

Lemma literals_are_binary32 :
  List.forallb (valid_binary prec emax)
    (f0 :: f1 :: f2 :: f4 :: f5 :: f1000 :: f5000 :: nil) = true.
Proof. reflexivity. Qed.

Lemma literals_are_what_they_denote :
  f0 = zero /\ f1 = SFone prec emax /\ f2 = f1 + f1 /\ f4 = f2 + f2 /\
  f5 = f4 + f1 /\ f1000 = (f5 + f5) * (f5 + f5) * (f5 + f5) /\
  f5000 = f5 * f1000.
Proof. repeat split. Qed.

Section FloatFacts.

Variables x y : float.

Lemma mul_nan_l : nan * x = nan.
Proof. reflexivity. Qed.

Lemma mul_nan_r : x * nan = nan.
Proof. destruct x; reflexivity. Qed.

Lemma add_nan_r : x + nan = nan.
Proof. destruct x; reflexivity. Qed.

Lemma div_nan_r : x / nan = nan.
Proof. destruct x; reflexivity. Qed.

Lemma IsNaN_true : IsNaN x = true -> x = nan.
Proof. destruct x; simpl; intros E; try discriminate E; reflexivity. Qed.

Lemma nan_neq_zero : (nan == zero) = false.
Proof. reflexivity. Qed.

(** Swapping the sides of a comparison reverses its outcome. *)
Lemma SFcompare_swap :
  SFcompare y x = option_map CompOpp (SFcompare x y).
Proof.
  destruct x as [[|]| [|] | | [|] mx ex], y as [[|]| [|] | | [|] my ey];
    simpl; try reflexivity.
  all: fold (Pos.compare mx my); fold (Pos.compare my mx).
  all: rewrite (Z.compare_antisym ex ey), (Pos.compare_antisym mx my).
  all: destruct (ex ?= ey)%Z; simpl; try reflexivity.
  all: destruct (mx ?= my)%positive; reflexivity.
Qed.

Lemma ltb_asym : (x < y) = true -> (y < x) = false.
Proof.
  unfold ltb, SFltb. rewrite SFcompare_swap.
  destruct (SFcompare x y) as [[| |]|]; simpl; intros E;
    try discriminate E; reflexivity.
Qed.

End FloatFacts.

(** ** The guard shared by [Update], [UpdateAsPD] and [UpdateAsPI] *)

Lemma degenerate_true (error deltaTime : float) :
  (deltaTime == zero) = true \/ IsNaN error = true ->
  degenerate error deltaTime = true.
Proof.
  unfold degenerate. intros [E | E]; rewrite E.
  - reflexivity.
  - apply orb_true_r.
Qed.

Lemma degenerate_false (error deltaTime : float) :
  (deltaTime == zero) = false -> IsNaN error = false ->
  degenerate error deltaTime = false.
Proof. unfold degenerate. intros -> ->. reflexivity. Qed.

Lemma Update_guarded (this : FPIDController) (error deltaTime : float) :
  degenerate error deltaTime = true ->
  Update this error deltaTime = (zero, this).
Proof. unfold Update, degenerate. intros ->. reflexivity. Qed.

Lemma UpdateAsPD_guarded (this : FPIDController) (error deltaTime : float) :
  degenerate error deltaTime = true ->
  UpdateAsPD this error deltaTime = (zero, this).
Proof. unfold UpdateAsPD, degenerate. intros ->. reflexivity. Qed.

Lemma UpdateAsPI_guarded (this : FPIDController) (error deltaTime : float) :
  degenerate error deltaTime = true ->
  UpdateAsPI this error deltaTime = (zero, this).
Proof. unfold UpdateAsPI, degenerate. intros ->. reflexivity. Qed.

(** Past the guard, each variant in closed form. *)

Lemma Update_computed (this : FPIDController) (error deltaTime : float) :
  degenerate error deltaTime = false ->
  Update this error deltaTime =
    (clampOut this (rawPID this error deltaTime),
     mkFPIDController (P this) (I this) (D this) (MaxOutAbs this)
       error (integral this error deltaTime)).
Proof. unfold Update, degenerate. intros ->. reflexivity. Qed.

Lemma UpdateAsPD_computed (this : FPIDController) (error deltaTime : float) :
  degenerate error deltaTime = false ->
  UpdateAsPD this error deltaTime =
    (clampOut this (rawPD this error deltaTime), set_PrevErr this error).
Proof. unfold UpdateAsPD, degenerate. intros ->. reflexivity. Qed.

Lemma UpdateAsPI_computed (this : FPIDController) (error deltaTime : float) :
  degenerate error deltaTime = false ->
  UpdateAsPI this error deltaTime =
    (clampOut this (rawPI this error deltaTime),
     set_IErr this (integral this error deltaTime)).
Proof. unfold UpdateAsPI, degenerate. intros ->. reflexivity. Qed.

Lemma UpdateAsP_computed (this : FPIDController) (error : float) :
  UpdateAsP this error =
    (if IsNaN error then zero else clampOut this (rawP this error), this).
Proof. unfold UpdateAsP. destruct (IsNaN error); reflexivity. Qed.

(** C1: whenever the time step compares equal to zero or the error is not
    a number, [Update] returns [0.0f] and hands the object back untouched,
    so [PrevErr] and [IErr] keep their values; [UpdateAsPD], [UpdateAsPI]
    and [UpdateAsPID] behave the same. *)
Theorem degenerate_input_is_a_no_op :
  forall (this : FPIDController) (error deltaTime : float),
    (deltaTime == zero) = true \/ IsNaN error = true ->
    (Update this error deltaTime = (zero, this) /\
     UpdateAsPD this error deltaTime = (zero, this) /\
     UpdateAsPI this error deltaTime = (zero, this) /\
     UpdateAsPID this error deltaTime = (zero, this)) /\
    PrevErr (snd (Update this error deltaTime)) = PrevErr this /\
    IErr (snd (Update this error deltaTime)) = IErr this.
Proof.
  intros this error deltaTime Hdeg.
  apply degenerate_true in Hdeg.
  unfold UpdateAsPID.
  rewrite (Update_guarded this _ _ Hdeg), (UpdateAsPD_guarded this _ _ Hdeg),
    (UpdateAsPI_guarded this _ _ Hdeg).
  repeat split.
Qed.

(** The guard fires on a negative zero time step with a finite error,
    and on a not-a-number error with a unit time step. *)
Lemma degenerate_input_is_a_no_op_witness :
  ((- zero == zero) = true /\
   Update seasoned f5 (- zero) = (zero, seasoned)) /\
  (IsNaN nan = true /\
   Update seasoned nan f1 = (zero, seasoned)).
Proof.
  split; split.
  - reflexivity.
  - apply (degenerate_input_is_a_no_op seasoned f5 (- zero)).
    left. reflexivity.
  - reflexivity.
  - apply (degenerate_input_is_a_no_op seasoned nan f1).
    right. reflexivity.
Defined.

(** C2: on a non-degenerate input [Update] adds [deltaTime * error] to
    [IErr], sets [PrevErr] to the error, leaves the four tunables alone, and
    returns the clamp to [[-MaxOutAbs, MaxOutAbs]] of [pOut + iOut + dOut],
    where [pOut = P * error], [iOut = I * IErr] for the new [IErr], and
    [dOut = D * ((error - PrevErr) / deltaTime)] for the old [PrevErr]. *)
Theorem Update_on_regular_input :
  forall (this : FPIDController) (error deltaTime : float),
    (deltaTime == zero) = false ->
    IsNaN error = false ->
    let out := fst (Update this error deltaTime) in
    let this' := snd (Update this error deltaTime) in
    let pOut := P this * error in
    let iOut := I this * IErr this' in
    let dOut := D this * ((error - PrevErr this) / deltaTime) in
    IErr this' = IErr this + deltaTime * error /\
    PrevErr this' = error /\
    out = Clamp (pOut + iOut + dOut) (- MaxOutAbs this) (MaxOutAbs this) /\
    P this' = P this /\ I this' = I this /\ D this' = D this /\
    MaxOutAbs this' = MaxOutAbs this.
Proof.
  intros this error deltaTime Hdt Herr.
  rewrite (Update_computed this _ _ (degenerate_false _ _ Hdt Herr)).
  cbn [fst snd P I D MaxOutAbs PrevErr IErr].
  repeat split.
Qed.

(** The derivative example of the specification: gains 0, 0, 1 and limit
    1000, error 5 over one second from a fresh object. *)
Lemma Update_on_regular_input_witness :
  (f1 == zero) = false /\ IsNaN f5 = false /\
  IErr (snd (Update fresh_D f5 f1)) = IErr fresh_D + f1 * f5 /\
  PrevErr (snd (Update fresh_D f5 f1)) = f5.
Proof.
  pose proof (Update_on_regular_input fresh_D f5 f1
                (eq_refl false) (eq_refl false)) as (Hi & Hp & _).
  split; [reflexivity | split; [reflexivity | split]].
  - exact Hi.
  - exact Hp.
Defined.

(** C6: [UpdateAsPID] is [Update]: same returned value and same object
    afterwards, on every object and every input. *)
Theorem UpdateAsPID_is_Update :
  forall (this : FPIDController) (error deltaTime : float),
    UpdateAsPID this error deltaTime = Update this error deltaTime /\
    fst (UpdateAsPID this error deltaTime) = fst (Update this error deltaTime) /\
    PrevErr (snd (UpdateAsPID this error deltaTime)) =
      PrevErr (snd (Update this error deltaTime)) /\
    IErr (snd (UpdateAsPID this error deltaTime)) =
      IErr (snd (Update this error deltaTime)).
Proof. intros this error deltaTime. unfold UpdateAsPID. repeat split. Qed.

(** ** Construction and [Reset] *)

Lemma Reset_eq (this : FPIDController) :
  Reset this =
    mkFPIDController (P this) (I this) (D this) (MaxOutAbs this) zero zero.
Proof. reflexivity. Qed.

Lemma ctor_eq (mem : FPIDController) (p i d lim : float) :
  FPIDController_ctor mem p i d lim = mkFPIDController p i d lim zero zero.
Proof. reflexivity. Qed.

Lemma Reset_iter (n : nat) (this : FPIDController) :
  Nat.iter (S n) Reset this = Reset this.
Proof.
  induction n as [| n IH].
  - reflexivity.
  - change (Reset (Nat.iter (S n) Reset this) = Reset this).
    rewrite IH. reflexivity.
Qed.

(** C9: the parameterized constructor stores its four arguments verbatim
    and, through the [Reset] of its body, leaves [PrevErr] and [IErr] at
    zero whatever the storage held before; the object needs no further
    [Reset], and its first update does not depend on the prior contents
    of the storage. *)
Theorem ctor_initializes :
  forall (mem : FPIDController) (p i d lim : float),
    let this := FPIDController_ctor mem p i d lim in
    (P this = p /\ I this = i /\ D this = d /\ MaxOutAbs this = lim) /\
    (PrevErr this = zero /\ IErr this = zero) /\
    this = Reset (mkFPIDController p i d lim (PrevErr mem) (IErr mem)) /\
    Reset this = this /\
    (forall mem' ks,
        run ks this = run ks (FPIDController_ctor mem' p i d lim)).
Proof.
  intros mem p i d lim this. subst this.
  repeat split.
Qed.

(** C7: [Reset] zeroes [PrevErr] and [IErr] and keeps the four tunables;
    resetting again, any number of times, changes nothing more; and a
    reset object is the freshly constructed object of the same tunables,
    so every later sequence of calls returns the same values and ends in
    the same state on both. *)
Theorem Reset_idempotent :
  forall this : FPIDController,
    (PrevErr (Reset this) = zero /\ IErr (Reset this) = zero) /\
    (P (Reset this) = P this /\ I (Reset this) = I this /\
     D (Reset this) = D this /\ MaxOutAbs (Reset this) = MaxOutAbs this) /\
    Reset (Reset this) = Reset this /\
    (forall n, Nat.iter (S n) Reset this = Reset this) /\
    (forall mem,
        let fresh :=
          FPIDController_ctor mem (P this) (I this) (D this) (MaxOutAbs this) in
        Reset this = Reset fresh /\
        (forall ks, run ks (Reset this) = run ks (Reset fresh)) /\
        (forall e dt, Update (Reset this) e dt = Update (Reset fresh) e dt)).
Proof.
  intros this. repeat split.
  intros n. apply Reset_iter.
Qed.

(** ** What each call leaves alone *)

Lemma Update_tunables (this : FPIDController) (e dt : float) :
  same_tunables (snd (Update this e dt)) this.
Proof.
  destruct (degenerate e dt) eqn:G.
  - rewrite (Update_guarded this e dt G). repeat split.
  - rewrite (Update_computed this e dt G). repeat split.
Qed.

Lemma UpdateAsPD_tunables (this : FPIDController) (e dt : float) :
  same_tunables (snd (UpdateAsPD this e dt)) this.
Proof.
  destruct (degenerate e dt) eqn:G.
  - rewrite (UpdateAsPD_guarded this e dt G). repeat split.
  - rewrite (UpdateAsPD_computed this e dt G). repeat split.
Qed.

Lemma UpdateAsPI_tunables (this : FPIDController) (e dt : float) :
  same_tunables (snd (UpdateAsPI this e dt)) this.
Proof.
  destruct (degenerate e dt) eqn:G.
  - rewrite (UpdateAsPI_guarded this e dt G). repeat split.
  - rewrite (UpdateAsPI_computed this e dt G). repeat split.
Qed.

Lemma UpdateAsP_state (this : FPIDController) (e : float) :
  snd (UpdateAsP this e) = this.
Proof. rewrite UpdateAsP_computed. reflexivity. Qed.

Lemma same_tunables_trans (a b c : FPIDController) :
  same_tunables a b -> same_tunables b c -> same_tunables a c.
Proof.
  unfold same_tunables.
  intros (Hp & Hi & Hd & Hm) (Hp' & Hi' & Hd' & Hm').
  repeat split; etransitivity; eassumption.
Qed.

Lemma call_tunables (k : Call) (this : FPIDController) :
  same_tunables (snd (call k this)) this.
Proof.
  destruct k as [e dt | e dt | e | e dt | e dt |]; simpl.
  - generalize (Update_tunables this e dt).
    destruct (Update this e dt); trivial.
  - generalize (Update_tunables this e dt). unfold UpdateAsPID.
    destruct (Update this e dt); trivial.
  - generalize (UpdateAsP_state this e).
    destruct (UpdateAsP this e); simpl; intros ->. repeat split.
  - generalize (UpdateAsPD_tunables this e dt).
    destruct (UpdateAsPD this e dt); trivial.
  - generalize (UpdateAsPI_tunables this e dt).
    destruct (UpdateAsPI this e dt); trivial.
  - repeat split.
Qed.

(** No sequence of calls changes a gain or the limit. *)
Lemma run_tunables (ks : list Call) :
  forall this : FPIDController, same_tunables (snd (run ks this)) this.
Proof.
  induction ks as [| k ks IH]; intros this; simpl.
  - repeat split.
  - generalize (call_tunables k this).
    destruct (call k this) as [r this1]; simpl; intros H1.
    generalize (IH this1).
    destruct (run ks this1) as [rs this2]; simpl; intros H2.
    exact (same_tunables_trans _ _ _ H2 H1).
Qed.

(** The value [UpdateAsP] returns is a function of [P], [MaxOutAbs] and
    the error. *)
Lemma UpdateAsP_output (this other : FPIDController) (e : float) :
  P other = P this -> MaxOutAbs other = MaxOutAbs this ->
  fst (UpdateAsP other e) = fst (UpdateAsP this e).
Proof.
  intros Hp Hm. rewrite !UpdateAsP_computed.
  unfold clampOut, rawP, pOut. rewrite Hp, Hm. reflexivity.
Qed.

(** C4, as amended: on a non-degenerate input [UpdateAsPD] and
    [UpdateAsPID] set [PrevErr] to the error, while [UpdateAsPI] leaves
    [PrevErr] as it was and only writes [IErr]. *)
Theorem PrevErr_after_reduced_variants :
  forall (this : FPIDController) (error deltaTime : float),
    (deltaTime == zero) = false ->
    IsNaN error = false ->
    PrevErr (snd (UpdateAsPD this error deltaTime)) = error /\
    PrevErr (snd (UpdateAsPID this error deltaTime)) = error /\
    PrevErr (snd (UpdateAsPI this error deltaTime)) = PrevErr this /\
    IErr (snd (UpdateAsPI this error deltaTime)) =
      IErr this + deltaTime * error.
Proof.
  intros this error deltaTime Hdt Herr.
  pose proof (degenerate_false _ _ Hdt Herr) as G.
  unfold UpdateAsPID.
  rewrite (UpdateAsPD_computed this _ _ G), (Update_computed this _ _ G),
    (UpdateAsPI_computed this _ _ G).
  repeat split.
Qed.

Lemma PrevErr_after_reduced_variants_witness :
  (f1 == zero) = false /\ IsNaN f2 = false /\
  PrevErr (snd (UpdateAsPD seasoned f2 f1)) = f2 /\
  PrevErr (snd (UpdateAsPI seasoned f2 f1)) = PrevErr seasoned.
Proof.
  pose proof (PrevErr_after_reduced_variants seasoned f2 f1
                (eq_refl false) (eq_refl false)) as (Hpd & _ & Hpi & _).
  split; [reflexivity | split; [reflexivity | split]].
  - exact Hpd.
  - exact Hpi.
Defined.

(** C4, as stated, fails: at error 2 and time step 1 (a non-degenerate
    input) on a fresh object, the three variants do not all leave
    [PrevErr] equal to the error, because [UpdateAsPI] leaves it at 0. *)
Lemma UpdateAsPI_keeps_PrevErr_counterexample :
  (f1 == zero) = false /\ IsNaN f2 = false /\
  PrevErr (snd (UpdateAsPI fresh_I f2 f1)) = zero /\
  ~ (PrevErr (snd (UpdateAsPD fresh_I f2 f1)) = f2 /\
     PrevErr (snd (UpdateAsPID fresh_I f2 f1)) = f2 /\
     PrevErr (snd (UpdateAsPI fresh_I f2 f1)) = f2).
Proof.
  split; [reflexivity | split; [reflexivity | split; [reflexivity |]]].
  intros (_ & _ & H). vm_compute in H. discriminate H.
Qed.

(** C5: [UpdateAsP] has no time step to guard; it returns zero on a
    not-a-number error and the clamp of [P * error] otherwise, and hands
    the object back untouched.  So the value returned depends on [P],
    [MaxOutAbs] and the error alone, whatever calls came before, and an
    [UpdateAsPID] right after it, on a fresh object in particular, acts
    as if the [UpdateAsP] had not happened. *)
Theorem UpdateAsP_is_pure :
  forall (this : FPIDController) (error : float),
    fst (UpdateAsP this error) =
      (if IsNaN error then zero
       else Clamp (P this * error) (- MaxOutAbs this) (MaxOutAbs this)) /\
    snd (UpdateAsP this error) = this /\
    (forall i d prevErr iErr,
        fst (UpdateAsP
               (mkFPIDController (P this) i d (MaxOutAbs this) prevErr iErr)
               error)
        = fst (UpdateAsP this error)) /\
    (forall ks,
        fst (UpdateAsP (snd (run ks this)) error) = fst (UpdateAsP this error)) /\
    (forall e dt,
        UpdateAsPID (snd (UpdateAsP this error)) e dt = UpdateAsPID this e dt) /\
    (forall mem p i d lim e dt,
        let fresh := FPIDController_ctor mem p i d lim in
        UpdateAsPID (snd (UpdateAsP fresh error)) e dt = UpdateAsPID fresh e dt).
Proof.
  intros this error.
  split; [rewrite UpdateAsP_computed; reflexivity |].
  split; [apply UpdateAsP_state |].
  split; [intros i d prevErr iErr; apply UpdateAsP_output; reflexivity |].
  split; [| split].
  - intros ks. destruct (run_tunables ks this) as (Hp & _ & _ & Hm).
    apply UpdateAsP_output; assumption.
  - intros e dt. rewrite UpdateAsP_state. reflexivity.
  - intros mem p i d lim e dt fresh. rewrite UpdateAsP_state. reflexivity.
Qed.

(** C8: with [P = 0], [I = 1] and limit 1000 on a freshly reset object
    (any derivative gain), two calls [UpdateAsPI(2, 1)] in a row leave
    [IErr] at 2 and then at 4, and return 2 and then 4. *)
Theorem integral_accumulation :
  forall (mem : FPIDController) (d : float),
    let this0 := FPIDController_ctor mem f0 f1 d f1000 in
    let this1 := snd (UpdateAsPI this0 f2 f1) in
    let this2 := snd (UpdateAsPI this1 f2 f1) in
    this0 = Reset this0 /\
    IErr this1 = f2 /\ fst (UpdateAsPI this0 f2 f1) = f2 /\
    IErr this2 = f4 /\ fst (UpdateAsPI this1 f2 f1) = f4.
Proof. intros mem d. repeat split. Qed.

(** ** A not-a-number time step *)

Lemma raw_sums_at_nan_time_step (this : FPIDController) (error : float) :
  integral this error nan = nan /\
  rawPID this error nan = nan /\
  rawPD this error nan = nan /\
  rawPI this error nan = nan.
Proof.
  assert (Hi : integral this error nan = nan).
  { unfold integral. rewrite mul_nan_l. apply add_nan_r. }
  assert (Hd : dOut this error nan = nan).
  { unfold dOut. rewrite div_nan_r. apply mul_nan_r. }
  unfold rawPID, rawPD, rawPI, iOut. rewrite Hi, Hd, mul_nan_r, !add_nan_r.
  repeat split.
Qed.

(** C10: a not-a-number time step with a proper error is not caught by
    the guard.  [Update] (and [UpdateAsPID]) then stores not-a-number in
    [IErr] and the error in [PrevErr], [UpdateAsPD] stores the error in
    [PrevErr], [UpdateAsPI] stores not-a-number in [IErr], and each
    returns the clamp of a raw sum that is not a number instead of the
    guard's zero. *)
Theorem nan_time_step_passes_the_guard :
  forall (this : FPIDController) (error deltaTime : float),
    IsNaN deltaTime = true ->
    IsNaN error = false ->
    degenerate error deltaTime = false /\
    (IsNaN (rawPID this error deltaTime) = true /\
     IsNaN (rawPD this error deltaTime) = true /\
     IsNaN (rawPI this error deltaTime) = true) /\
    Update this error deltaTime =
      (Clamp nan (- MaxOutAbs this) (MaxOutAbs this),
       mkFPIDController (P this) (I this) (D this) (MaxOutAbs this)
         error nan) /\
    UpdateAsPID this error deltaTime =
      (Clamp nan (- MaxOutAbs this) (MaxOutAbs this),
       mkFPIDController (P this) (I this) (D this) (MaxOutAbs this)
         error nan) /\
    UpdateAsPD this error deltaTime =
      (Clamp nan (- MaxOutAbs this) (MaxOutAbs this),
       set_PrevErr this error) /\
    UpdateAsPI this error deltaTime =
      (Clamp nan (- MaxOutAbs this) (MaxOutAbs this),
       set_IErr this nan).
Proof.
  intros this error deltaTime Hdt Herr.
  apply IsNaN_true in Hdt. subst deltaTime.
  pose proof (degenerate_false error nan nan_neq_zero Herr) as G.
  destruct (raw_sums_at_nan_time_step this error) as (Hi & Hpid & Hpd & Hpi).
  unfold UpdateAsPID.
  rewrite (Update_computed this _ _ G), (UpdateAsPD_computed this _ _ G),
    (UpdateAsPI_computed this _ _ G).
  rewrite Hi, Hpid, Hpd, Hpi.
  repeat split; assumption.
Qed.

(** On a fresh object with [P = 1] and limit 1000, error 5 with a
    not-a-number time step returns 1000 under the modelled clamp, and
    poisons [IErr]. *)
Lemma nan_time_step_passes_the_guard_witness :
  IsNaN nan = true /\ IsNaN f5 = false /\
  Update fresh_P f5 nan =
    (f1000, mkFPIDController f1 f0 f0 f1000 f5 nan).
Proof.
  split; [reflexivity | split; [reflexivity |]].
  destruct (nan_time_step_passes_the_guard fresh_P f5 nan
              (eq_refl true) (eq_refl false)) as (_ & _ & H & _).
  exact H.
Defined.

(** ** Saturation of the clamp *)

Section Opposite.

Variables x y : float.

Lemma neg_involutive : - - x = x.
Proof. destruct x as [[|] | [|] | | [|] m e]; reflexivity. Qed.

Lemma SFcompare_neg :
  SFcompare (- x) (- y) = option_map CompOpp (SFcompare x y).
Proof.
  destruct x as [[|] | [|] | | [|] mx ex],
           y as [[|] | [|] | | [|] my ey]; simpl; try reflexivity.
  all: fold (Pos.compare mx my).
  all: destruct (ex ?= ey)%Z; simpl; try reflexivity.
  all: destruct (mx ?= my)%positive; reflexivity.
Qed.

Lemma ltb_neg : (- x < - y) = (y < x).
Proof.
  unfold ltb, SFltb. rewrite SFcompare_neg, (SFcompare_swap x y).
  reflexivity.
Qed.

Lemma abs_by_sign : abs x = if signbit x then - x else x.
Proof. destruct x as [[|] | [|] | | [|] m e]; reflexivity. Qed.

End Opposite.

Section Saturation.

Variables lim raw : float.

Hypothesis lim_nonneg : (zero <= lim) = true.

Lemma nonneg_above_its_opposite : (lim < - lim) = false.
Proof.
  destruct lim as [[|] | [|] | | [|] ml el]; try reflexivity;
    discriminate lim_nonneg.
Qed.

Lemma negative_below_nonneg :
  signbit raw = true -> (lim < - raw) = true -> (raw < lim) = true.
Proof.
  destruct lim as [[|] | [|] | | [|] ml el];
    try discriminate lim_nonneg;
    destruct raw as [[|] | [|] | | [|] mr er]; simpl; intros Hs Hlt;
    try discriminate Hs; try discriminate Hlt; reflexivity.
Qed.

(** Above the limit in magnitude, the clamp lands exactly on the bound
    on the side of the raw value. *)
Lemma Clamp_saturates :
  (lim < abs raw) = true ->
  Clamp raw (- lim) lim = if signbit raw then - lim else lim.
Proof.
  rewrite abs_by_sign. unfold Clamp, Max, Min.
  destruct (signbit raw) eqn:Hs; intros Hlt.
  - rewrite (negative_below_nonneg Hs Hlt).
    assert (Hb : (raw < - lim) = true).
    { rewrite <- (neg_involutive raw), ltb_neg. exact Hlt. }
    rewrite Hb. reflexivity.
  - rewrite (ltb_asym lim raw Hlt), nonneg_above_its_opposite.
    reflexivity.
Qed.

End Saturation.

(** C3: every variant returns, past its guard, the clamp of its raw sum
    to [[-MaxOutAbs, MaxOutAbs]], where [Clamp x lo hi] is
    [Max lo (Min x hi)]; and with a non-negative limit, a raw sum whose
    absolute value is above the limit makes the variant return exactly
    [MaxOutAbs] when the raw sum is positive and exactly [-MaxOutAbs] when
    it is negative. *)
Theorem clamp_is_symmetric_and_saturates :
  forall (this : FPIDController) (error deltaTime : float),
    let lim := MaxOutAbs this in
    (forall x lo hi, Clamp x lo hi = Max lo (Min x hi)) /\
    (degenerate error deltaTime = false ->
       fst (Update this error deltaTime) =
         Clamp (rawPID this error deltaTime) (- lim) lim /\
       fst (UpdateAsPID this error deltaTime) =
         Clamp (rawPID this error deltaTime) (- lim) lim /\
       fst (UpdateAsPD this error deltaTime) =
         Clamp (rawPD this error deltaTime) (- lim) lim /\
       fst (UpdateAsPI this error deltaTime) =
         Clamp (rawPI this error deltaTime) (- lim) lim) /\
    (IsNaN error = false ->
       fst (UpdateAsP this error) = Clamp (rawP this error) (- lim) lim) /\
    ((zero <= lim) = true ->
       (degenerate error deltaTime = false ->
          ((lim < abs (rawPID this error deltaTime)) = true ->
             fst (Update this error deltaTime) =
               saturated this (rawPID this error deltaTime) /\
             fst (UpdateAsPID this error deltaTime) =
               saturated this (rawPID this error deltaTime)) /\
          ((lim < abs (rawPD this error deltaTime)) = true ->
             fst (UpdateAsPD this error deltaTime) =
               saturated this (rawPD this error deltaTime)) /\
          ((lim < abs (rawPI this error deltaTime)) = true ->
             fst (UpdateAsPI this error deltaTime) =
               saturated this (rawPI this error deltaTime))) /\
       (IsNaN error = false ->
          (lim < abs (rawP this error)) = true ->
          fst (UpdateAsP this error) = saturated this (rawP this error))).
Proof.
  intros this error deltaTime lim. subst lim.
  split; [reflexivity |].
  split.
  { intros G. unfold UpdateAsPID.
    rewrite (Update_computed this _ _ G), (UpdateAsPD_computed this _ _ G),
      (UpdateAsPI_computed this _ _ G).
    repeat split. }
  split.
  { intros Herr. rewrite UpdateAsP_computed, Herr. reflexivity. }
  intros Hlim. split.
  - intros G. unfold UpdateAsPID.
    rewrite (Update_computed this _ _ G), (UpdateAsPD_computed this _ _ G),
      (UpdateAsPI_computed this _ _ G).
    cbn [fst]. unfold clampOut, saturated.
    split; [| split]; intros Habove;
      rewrite (Clamp_saturates _ _ Hlim Habove); repeat split.
  - intros Herr Habove. rewrite UpdateAsP_computed, Herr.
    cbn [fst]. unfold clampOut, saturated.
    apply (Clamp_saturates _ _ Hlim Habove).
Qed.

(** With [P = 1] and limit 1000 on a fresh object, the errors 5000 and
    -5000 over one second give the raw sums 5000 and -5000, and [Update]
    returns 1000 and -1000. *)
Lemma clamp_is_symmetric_and_saturates_witness :
  (zero <= MaxOutAbs fresh_P) = true /\
  degenerate f5000 f1 = false /\
  (MaxOutAbs fresh_P < abs (rawPID fresh_P f5000 f1)) = true /\
  fst (Update fresh_P f5000 f1) = f1000 /\
  degenerate (- f5000) f1 = false /\
  (MaxOutAbs fresh_P < abs (rawPID fresh_P (- f5000) f1)) = true /\
  fst (Update fresh_P (- f5000) f1) = - f1000.
Proof.
  destruct (clamp_is_symmetric_and_saturates fresh_P f5000 f1)
    as (_ & _ & _ & Hpos).
  destruct (clamp_is_symmetric_and_saturates fresh_P (- f5000) f1)
    as (_ & _ & _ & Hneg).
  split; [reflexivity |].
  split; [reflexivity |].
  split; [reflexivity |].
  split.
  { exact (proj1 (proj1 (proj1 (Hpos (eq_refl true)) (eq_refl false))
                    (eq_refl true))). }
  split; [reflexivity |].
  split; [reflexivity |].
  exact (proj1 (proj1 (proj1 (Hneg (eq_refl true)) (eq_refl false))
                  (eq_refl true))).
Defined.

(** * Further properties of the controller *)

(** ** Histories *)

Lemma call_state (k : Call) (this : FPIDController) :
  snd (call k this) =
    match k with
    | CallUpdate e dt => snd (Update this e dt)
    | CallUpdateAsPID e dt => snd (UpdateAsPID this e dt)
    | CallUpdateAsP e => snd (UpdateAsP this e)
    | CallUpdateAsPD e dt => snd (UpdateAsPD this e dt)
    | CallUpdateAsPI e dt => snd (UpdateAsPI this e dt)
    | CallReset => Reset this
    end.
Proof.
  destruct k as [e dt | e dt | e | e dt | e dt |]; simpl.
  - destruct (Update this e dt); reflexivity.
  - destruct (UpdateAsPID this e dt); reflexivity.
  - destruct (UpdateAsP this e); reflexivity.
  - destruct (UpdateAsPD this e dt); reflexivity.
  - destruct (UpdateAsPI this e dt); reflexivity.
  - reflexivity.
Qed.

Lemma run_cons_state (k : Call) (ks : list Call) (this : FPIDController) :
  snd (run (k :: ks) this) = snd (run ks (snd (call k this))).
Proof.
  simpl. destruct (call k this) as [r this1]. simpl.
  destruct (run ks this1); reflexivity.
Qed.

(** One call acts on the two error members as [integrate] and
    [remember] say. *)
Lemma call_errors (k : Call) (this : FPIDController) :
  IErr (snd (call k this)) = integrate (IErr this) k /\
  PrevErr (snd (call k this)) = remember (PrevErr this) k.
Proof.
  rewrite call_state.
  destruct k as [e dt | e dt | e | e dt | e dt |]; simpl;
    unfold UpdateAsPID;
    try (destruct (degenerate e dt) eqn:G;
         [ rewrite ?(Update_guarded this e dt G),
             ?(UpdateAsPD_guarded this e dt G),
             ?(UpdateAsPI_guarded this e dt G)
         | rewrite ?(Update_computed this e dt G),
             ?(UpdateAsPD_computed this e dt G),
             ?(UpdateAsPI_computed this e dt G) ]);
    rewrite ?UpdateAsP_state; split; reflexivity.
Qed.

Lemma run_errors (ks : list Call) :
  forall this : FPIDController,
    IErr (snd (run ks this)) = List.fold_left integrate ks (IErr this) /\
    PrevErr (snd (run ks this)) = List.fold_left remember ks (PrevErr this).
Proof.
  induction ks as [| k ks IH]; intros this.
  - split; reflexivity.
  - rewrite run_cons_state. simpl List.fold_left.
    destruct (call_errors k this) as (Hi & Hp).
    destruct (IH (snd (call k this))) as (IHi & IHp).
    rewrite IHi, IHp, Hi, Hp. split; reflexivity.
Qed.

(** X1: after any sequence of calls, [IErr] is the left-to-right sum of
    the products [dt * e] of the calls with an integral term whose guard
    did not fire, restarted from zero at each [Reset], and [PrevErr] is
    the error of the last call with a derivative term whose guard did
    not fire, or zero if a [Reset] came later. *)
Theorem errors_after_history :
  forall (ks : list Call) (this : FPIDController),
    IErr (snd (run ks this)) = List.fold_left integrate ks (IErr this) /\
    PrevErr (snd (run ks this)) = List.fold_left remember ks (PrevErr this).
Proof. intros ks this. apply run_errors. Qed.

(** X2: the two error members evolve independently of the gains, of the
    limit and of the values returned: the same calls on an object with
    other tunables but the same [PrevErr] and [IErr] end in the same
    [PrevErr] and [IErr].  In particular the integral keeps growing
    while the output is clamped. *)
Theorem errors_ignore_tunables :
  forall (ks : list Call) (this : FPIDController) (p i d lim : float),
    let other := mkFPIDController p i d lim (PrevErr this) (IErr this) in
    IErr (snd (run ks other)) = IErr (snd (run ks this)) /\
    PrevErr (snd (run ks other)) = PrevErr (snd (run ks this)).
Proof.
  intros ks this p i d lim other.
  destruct (run_errors ks this) as (-> & ->).
  destruct (run_errors ks other) as (-> & ->).
  split; reflexivity.
Qed.

(** ** What the guard protects *)

Lemma degenerate_false_inv (e dt : float) :
  degenerate e dt = false -> IsNaN e = false.
Proof.
  unfold degenerate. intros G. apply orb_false_iff in G. apply G.
Qed.

Lemma remember_not_nan (prev : float) (k : Call) :
  IsNaN prev = false -> IsNaN (remember prev k) = false.
Proof.
  intros Hprev.
  destruct k as [e dt | e dt | e | e dt | e dt |]; simpl;
    try assumption; try reflexivity;
    destruct (degenerate e dt) eqn:G; try assumption;
    exact (degenerate_false_inv e dt G).
Qed.

Lemma fold_remember_not_nan (ks : list Call) :
  forall prev : float,
    IsNaN prev = false -> IsNaN (List.fold_left remember ks prev) = false.
Proof.
  induction ks as [| k ks IH]; intros prev Hprev; simpl.
  - exact Hprev.
  - apply IH, remember_not_nan, Hprev.
Qed.

(** X3: [PrevErr] never becomes not-a-number: if it is a number before a
    sequence of calls, it is one after, whatever the inputs. *)
Theorem PrevErr_stays_a_number :
  forall (ks : list Call) (this : FPIDController),
    IsNaN (PrevErr this) = false ->
    IsNaN (PrevErr (snd (run ks this))) = false.
Proof.
  intros ks this Hprev.
  destruct (run_errors ks this) as (_ & ->).
  apply fold_remember_not_nan, Hprev.
Qed.

Lemma PrevErr_stays_a_number_witness :
  IsNaN (PrevErr seasoned) = false /\
  IsNaN (PrevErr (snd (run busy_history seasoned))) = false.
Proof.
  split; [reflexivity |].
  apply (PrevErr_stays_a_number busy_history seasoned). reflexivity.
Defined.

(** ** What the guard lets through *)

Lemma add_not_finite (x y : float) :
  is_finite x = false -> is_finite (x + y) = false.
Proof.
  destruct x as [sx | [|] | | sx mx ex]; simpl; intros Hx;
    try discriminate Hx;
    destruct y as [sy | [|] | | sy my ey]; reflexivity.
Qed.

Lemma add_nan_l (y : float) : nan + y = nan.
Proof. reflexivity. Qed.

Lemma integrate_not_finite (acc : float) (k : Call) :
  is_Reset k = false ->
  (is_finite acc = false -> is_finite (integrate acc k) = false) /\
  (IsNaN acc = true -> IsNaN (integrate acc k) = true).
Proof.
  intros Hk.
  destruct k as [e dt | e dt | e | e dt | e dt |]; simpl;
    try discriminate Hk; try (split; intros H; exact H);
    destruct (degenerate e dt); split; intros H; try exact H.
  all: try (apply add_not_finite; exact H).
  all: apply IsNaN_true in H; subst acc; reflexivity.
Qed.

Lemma fold_integrate_not_finite (ks : list Call) :
  forall acc : float,
    List.forallb (fun k => negb (is_Reset k)) ks = true ->
    (is_finite acc = false ->
     is_finite (List.fold_left integrate ks acc) = false) /\
    (IsNaN acc = true ->
     IsNaN (List.fold_left integrate ks acc) = true).
Proof.
  induction ks as [| k ks IH]; intros acc Hks; simpl.
  - split; intros H; exact H.
  - simpl in Hks. apply andb_true_iff in Hks. destruct Hks as (Hk & Hks).
    apply negb_true_iff in Hk.
    destruct (integrate_not_finite acc k Hk) as (Hf & Hn).
    destruct (IH (integrate acc k) Hks) as (IHf & IHn).
    split; intros H; [apply IHf, Hf, H | apply IHn, Hn, H].
Qed.

(** X4: an [IErr] that is infinite or not-a-number is never brought back
    to a finite value by updates, and one that is not-a-number stays
    not-a-number: only [Reset] recovers the integral. *)
Theorem IErr_stays_poisoned :
  forall (ks : list Call) (this : FPIDController),
    List.forallb (fun k => negb (is_Reset k)) ks = true ->
    (is_finite (IErr this) = false ->
     is_finite (IErr (snd (run ks this))) = false) /\
    (IsNaN (IErr this) = true ->
     IsNaN (IErr (snd (run ks this))) = true).
Proof.
  intros ks this Hks.
  destruct (run_errors ks this) as (-> & _).
  apply fold_integrate_not_finite, Hks.
Qed.

(** A not-a-number time step on a fresh object poisons [IErr], and the
    three proper updates that follow do not cure it. *)
Lemma IErr_stays_poisoned_witness :
  List.forallb (fun k => negb (is_Reset k)) poisoned_history = true /\
  IsNaN (IErr (snd (UpdateAsPI fresh_I f2 nan))) = true /\
  IsNaN (IErr (snd (run poisoned_history
                      (snd (UpdateAsPI fresh_I f2 nan))))) = true.
Proof.
  split; [reflexivity | split; [reflexivity |]].
  apply (IErr_stays_poisoned poisoned_history
           (snd (UpdateAsPI fresh_I f2 nan)) (eq_refl true)).
  reflexivity.
Defined.

(** ** How the variants compose *)

(** X5: [UpdateAsPD] neither reads nor writes [IErr], and [UpdateAsPI]
    neither reads nor writes [PrevErr]; so a PD step and a PI step
    commute: in either order each returns the same value and the object
    ends in the same state. *)
Theorem PD_and_PI_commute :
  forall (this : FPIDController) (e1 dt1 e2 dt2 v : float),
    (UpdateAsPD (set_IErr this v) e1 dt1 =
       (fst (UpdateAsPD this e1 dt1),
        set_IErr (snd (UpdateAsPD this e1 dt1)) v)) /\
    (UpdateAsPI (set_PrevErr this v) e2 dt2 =
       (fst (UpdateAsPI this e2 dt2),
        set_PrevErr (snd (UpdateAsPI this e2 dt2)) v)) /\
    fst (UpdateAsPI (snd (UpdateAsPD this e1 dt1)) e2 dt2) =
      fst (UpdateAsPI this e2 dt2) /\
    fst (UpdateAsPD (snd (UpdateAsPI this e2 dt2)) e1 dt1) =
      fst (UpdateAsPD this e1 dt1) /\
    snd (UpdateAsPI (snd (UpdateAsPD this e1 dt1)) e2 dt2) =
      snd (UpdateAsPD (snd (UpdateAsPI this e2 dt2)) e1 dt1).
Proof.
  intros this e1 dt1 e2 dt2 v.
  destruct (degenerate e1 dt1) eqn:G1; destruct (degenerate e2 dt2) eqn:G2;
    rewrite ?(UpdateAsPD_guarded _ e1 dt1 G1),
      ?(UpdateAsPD_computed _ e1 dt1 G1);
    rewrite ?(UpdateAsPI_guarded _ e2 dt2 G2),
      ?(UpdateAsPI_computed _ e2 dt2 G2);
    cbn [fst snd];
    rewrite ?(UpdateAsPD_guarded _ e1 dt1 G1),
      ?(UpdateAsPD_computed _ e1 dt1 G1);
    rewrite ?(UpdateAsPI_guarded _ e2 dt2 G2),
      ?(UpdateAsPI_computed _ e2 dt2 G2);
    repeat split.
Qed.

(** X6: on the two error members, [Update] does what [UpdateAsPI]
    followed by [UpdateAsPD] on the same input does, in either order,
    whether or not the guard fires. *)
Theorem Update_state_is_PI_then_PD :
  forall (this : FPIDController) (error deltaTime : float),
    snd (Update this error deltaTime) =
      snd (UpdateAsPD (snd (UpdateAsPI this error deltaTime))
             error deltaTime) /\
    snd (Update this error deltaTime) =
      snd (UpdateAsPI (snd (UpdateAsPD this error deltaTime))
             error deltaTime).
Proof.
  intros this error deltaTime.
  destruct (degenerate error deltaTime) eqn:G.
  - rewrite (Update_guarded this _ _ G), (UpdateAsPI_guarded this _ _ G),
      (UpdateAsPD_guarded this _ _ G).
    cbn [snd].
    rewrite (UpdateAsPI_guarded this _ _ G), (UpdateAsPD_guarded this _ _ G).
    split; reflexivity.
  - rewrite (Update_computed this _ _ G), (UpdateAsPI_computed this _ _ G),
      (UpdateAsPD_computed this _ _ G).
    cbn [snd].
    rewrite (UpdateAsPI_computed _ _ _ G), (UpdateAsPD_computed _ _ _ G).
    split; reflexivity.
Qed.

(** X7: [Reset] erases every trace of a history: after any sequence of
    calls, [Reset] gives the state [Reset] gives before it, and on an
    object made by the parameterized constructor that is the state it
    was constructed in. *)
Theorem Reset_erases_history :
  forall (ks : list Call) (this : FPIDController),
    Reset (snd (run ks this)) = Reset this /\
    (forall mem p i d lim,
        Reset (snd (run ks (FPIDController_ctor mem p i d lim))) =
          FPIDController_ctor mem p i d lim).
Proof.
  intros ks.
  assert (H : forall this, Reset (snd (run ks this)) = Reset this).
  { intros this. rewrite !Reset_eq.
    destruct (run_tunables ks this) as (-> & -> & -> & ->). reflexivity. }
  intros this. split; [apply H |].
  intros mem p i d lim. rewrite H. reflexivity.
Qed.

(** ** The order on binary32 *)

Section Order.

Variables a b : float.

Lemma SFcompare_defined :
  IsNaN a = false -> IsNaN b = false -> exists c, SFcompare a b = Some c.
Proof.
  destruct a as [sa | sa | | sa ma ea]; intros Ha; try discriminate Ha;
    destruct b as [sb | sb | | sb mb eb]; intros Hb; try discriminate Hb;
    simpl; eexists; reflexivity.
Qed.

Lemma ltb_not_nan : (a < b) = true -> IsNaN a = false /\ IsNaN b = false.
Proof.
  destruct a as [sa | sa | | sa ma ea], b as [sb | sb | | sb mb eb];
    intros H; try discriminate H; split; reflexivity.
Qed.

Lemma ltb_leb : (a < b) = true -> (a <= b) = true.
Proof.
  unfold ltb, leb, SFltb, SFleb.
  destruct (SFcompare a b) as [[| |] |]; intros H;
    try discriminate H; reflexivity.
Qed.

Lemma not_ltb_leb :
  IsNaN a = false -> IsNaN b = false -> (a < b) = false -> (b <= a) = true.
Proof.
  intros Ha Hb. destruct (SFcompare_defined Ha Hb) as (c & Hc).
  unfold ltb, leb, SFltb, SFleb. rewrite (SFcompare_swap a b), Hc.
  destruct c; simpl; intros H; try discriminate H; reflexivity.
Qed.

Lemma leb_refl : IsNaN a = false -> (a <= a) = true.
Proof.
  destruct a as [sa | [|] | | [|] ma ea]; intros Ha; try discriminate Ha;
    try reflexivity; unfold leb, SFleb; simpl;
    fold (Pos.compare ma ma);
    rewrite Z.compare_refl, Pos.compare_refl; reflexivity.
Qed.

End Order.

Section Limits.

Variable lim : float.

Hypothesis lim_nonneg : (zero <= lim) = true.

Lemma nonneg_facts :
  IsNaN lim = false /\ IsNaN (- lim) = false /\
  (- lim <= lim) = true /\ (- lim <= zero) = true.
Proof.
  destruct lim as [[|] | [|] | | [|] ml el]; try discriminate lim_nonneg;
    repeat split.
Qed.

Lemma zero_in_range : in_range lim zero = true.
Proof.
  destruct nonneg_facts as (_ & _ & _ & Hlo).
  unfold in_range. rewrite Hlo, lim_nonneg. reflexivity.
Qed.

(** Whatever is clamped, not-a-number included, the result is within
    the limits. *)
Lemma Clamp_in_range (x : float) :
  in_range lim (Clamp x (- lim) lim) = true.
Proof.
  destruct nonneg_facts as (Hn & Hn' & Hsym & _).
  assert (Hlo : in_range lim (- lim) = true).
  { unfold in_range. rewrite (leb_refl (- lim) Hn'), Hsym. reflexivity. }
  unfold Clamp, Max, Min.
  destruct (x < lim) eqn:Hx.
  - destruct (x < - lim) eqn:Hx'; [exact Hlo |].
    destruct (ltb_not_nan x lim Hx) as (Hxn & _).
    unfold in_range.
    rewrite (not_ltb_leb x (- lim) Hxn Hn' Hx'), (ltb_leb x lim Hx). reflexivity.
  - destruct (lim < - lim) eqn:Hl; [exact Hlo |].
    unfold in_range. rewrite Hsym, (leb_refl lim Hn). reflexivity.
Qed.

End Limits.

(** Strictly between the limits the clamp changes nothing. *)
Lemma Clamp_inside (lim x : float) :
  (- lim < x) = true -> (x < lim) = true -> Clamp x (- lim) lim = x.
Proof.
  intros Hlo Hhi. unfold Clamp, Max, Min.
  rewrite Hhi, (ltb_asym (- lim) x Hlo). reflexivity.
Qed.

Lemma sub_zero_r (x : float) : x - zero = x.
Proof. destruct x as [[|] | [|] | | [|] m e]; reflexivity. Qed.

(** ** The returned value *)

(** X8: with a non-negative limit, the value returned by every variant
    lies between [-MaxOutAbs] and [MaxOutAbs] on every input, whether the
    guard fires or not and even when gains, errors or the raw sum are
    infinite or not-a-number (under the modelled [Clamp]). *)
Theorem output_within_limits :
  forall (this : FPIDController) (error deltaTime : float),
    (zero <= MaxOutAbs this) = true ->
    in_range (MaxOutAbs this) (fst (Update this error deltaTime)) = true /\
    in_range (MaxOutAbs this) (fst (UpdateAsPID this error deltaTime)) = true /\
    in_range (MaxOutAbs this) (fst (UpdateAsPD this error deltaTime)) = true /\
    in_range (MaxOutAbs this) (fst (UpdateAsPI this error deltaTime)) = true /\
    in_range (MaxOutAbs this) (fst (UpdateAsP this error)) = true.
Proof.
  intros this error deltaTime Hlim.
  pose proof (zero_in_range _ Hlim) as Hz.
  pose proof (Clamp_in_range _ Hlim) as Hc.
  unfold UpdateAsPID. rewrite UpdateAsP_computed.
  destruct (degenerate error deltaTime) eqn:G.
  - rewrite (Update_guarded this _ _ G), (UpdateAsPD_guarded this _ _ G),
      (UpdateAsPI_guarded this _ _ G).
    cbn [fst]. destruct (IsNaN error); repeat split; auto; apply Hc.
  - rewrite (Update_computed this _ _ G), (UpdateAsPD_computed this _ _ G),
      (UpdateAsPI_computed this _ _ G).
    cbn [fst]. unfold clampOut.
    destruct (IsNaN error); repeat split; auto; apply Hc.
Qed.

(** With limit 1000, an error of 5000 over a not-a-number time step
    still gives a value within the limits. *)
Lemma output_within_limits_witness :
  (zero <= MaxOutAbs fresh_P) = true /\
  in_range (MaxOutAbs fresh_P) (fst (Update fresh_P f5000 nan)) = true.
Proof.
  split; [reflexivity |].
  apply (output_within_limits fresh_P f5000 nan). reflexivity.
Defined.

(** X9: past the guard, a raw sum strictly between [-MaxOutAbs] and
    [MaxOutAbs] is returned as it is, by every variant (under the
    modelled [Clamp]). *)
Theorem output_inside_limits_is_raw :
  forall (this : FPIDController) (error deltaTime : float),
    (deltaTime == zero) = false ->
    IsNaN error = false ->
    let lim := MaxOutAbs this in
    let inside x := (- lim < x) = true /\ (x < lim) = true in
    (inside (rawPID this error deltaTime) ->
       fst (Update this error deltaTime) = rawPID this error deltaTime /\
       fst (UpdateAsPID this error deltaTime) = rawPID this error deltaTime) /\
    (inside (rawPD this error deltaTime) ->
       fst (UpdateAsPD this error deltaTime) = rawPD this error deltaTime) /\
    (inside (rawPI this error deltaTime) ->
       fst (UpdateAsPI this error deltaTime) = rawPI this error deltaTime) /\
    (inside (rawP this error) ->
       fst (UpdateAsP this error) = rawP this error).
Proof.
  intros this error deltaTime Hdt Herr lim inside. subst lim inside.
  pose proof (degenerate_false _ _ Hdt Herr) as G.
  unfold UpdateAsPID.
  rewrite (Update_computed this _ _ G), (UpdateAsPD_computed this _ _ G),
    (UpdateAsPI_computed this _ _ G), UpdateAsP_computed, Herr.
  cbn [fst]. unfold clampOut.
  split; [| split; [| split]]; intros (Hlo & Hhi);
    rewrite (Clamp_inside _ _ Hlo Hhi); repeat split.
Qed.

(** With [P = 1] and limit 1000, an error of 5 over one second on a
    fresh object comes back as 5. *)
Lemma output_inside_limits_is_raw_witness :
  (f1 == zero) = false /\ IsNaN f5 = false /\
  ((- MaxOutAbs fresh_P < rawPID fresh_P f5 f1) = true /\
   (rawPID fresh_P f5 f1 < MaxOutAbs fresh_P) = true) /\
  fst (Update fresh_P f5 f1) = f5.
Proof.
  split; [reflexivity | split; [reflexivity | split]].
  - split; reflexivity.
  - destruct (output_inside_limits_is_raw fresh_P f5 f1
                (eq_refl false) (eq_refl false)) as (H & _).
    exact (proj1 (H (conj (eq_refl true) (eq_refl true)))).
Defined.

(** X10: on the first proper tick after [Reset] the derivative is taken
    against a previous error of zero, so the derivative term is
    [D * (error / deltaTime)]: [UpdateAsPD] returns the clamp of
    [P * error + D * (error / deltaTime)], and [Update] that of
    [P * error + I * (0 + deltaTime * error) + D * (error / deltaTime)]. *)
Theorem first_tick_after_Reset :
  forall (this : FPIDController) (error deltaTime : float),
    (deltaTime == zero) = false ->
    IsNaN error = false ->
    let lim := MaxOutAbs this in
    fst (UpdateAsPD (Reset this) error deltaTime) =
      Clamp (P this * error + D this * (error / deltaTime)) (- lim) lim /\
    fst (Update (Reset this) error deltaTime) =
      Clamp (P this * error + I this * (zero + deltaTime * error)
             + D this * (error / deltaTime)) (- lim) lim.
Proof.
  intros this error deltaTime Hdt Herr lim. subst lim.
  pose proof (degenerate_false _ _ Hdt Herr) as G.
  rewrite (Update_computed _ _ _ G), (UpdateAsPD_computed _ _ _ G).
  cbn [fst]. unfold clampOut, rawPID, rawPD, pOut, iOut, dOut, integral.
  cbn [Reset set_PrevErr set_IErr P I D MaxOutAbs PrevErr IErr].
  rewrite sub_zero_r. split; reflexivity.
Qed.

(** After a history that left [PrevErr] at 5, [Reset] and an error of 2
    over one second with [P = 2], [D = 1]: [2 * 2 + 1 * (2 / 1) = 6]. *)
Lemma first_tick_after_Reset_witness :
  (f1 == zero) = false /\ IsNaN f2 = false /\
  fst (UpdateAsPD (Reset seasoned) f2 f1) = f4 + f2.
Proof.
  split; [reflexivity | split; [reflexivity |]].
  destruct (first_tick_after_Reset seasoned f2 f1
              (eq_refl false) (eq_refl false)) as (H & _).
  rewrite H. reflexivity.
Defined.

(** ** A steady error *)

Lemma sub_diag_finite (e : float) :
  is_finite e = true -> exists s, e - e = S754_zero s.
Proof.
  destruct e as [[|] | se | | se me ee]; intros He; try discriminate He.
  - exists false. reflexivity.
  - exists false. reflexivity.
  - exists false. unfold sub, SFsub. rewrite Z.sub_diag. reflexivity.
Qed.

Lemma zero_div (s : bool) (dt : float) :
  IsNaN dt = false -> (dt == zero) = false ->
  exists s', S754_zero s / dt = S754_zero s'.
Proof.
  destruct dt as [sd | sd | | sd md ed]; intros Hn Hz;
    try discriminate Hn; try discriminate Hz;
    eexists; reflexivity.
Qed.

Lemma finite_mul_zero (d : float) (s : bool) :
  is_finite d = true -> exists s', d * S754_zero s = S754_zero s'.
Proof.
  destruct d as [sd | sd | | sd md ed]; intros Hd; try discriminate Hd;
    eexists; reflexivity.
Qed.

(** X11: when the error is finite and equal to the previous error, the
    time step is a number other than zero and [D] is finite, the
    derivative term is a zero: [UpdateAsPD] returns the clamp of
    [P * error] plus a zero, and [PrevErr] stays at that error. *)
Theorem steady_error_has_no_derivative :
  forall (this : FPIDController) (error deltaTime : float),
    is_finite error = true ->
    PrevErr this = error ->
    is_finite (D this) = true ->
    IsNaN deltaTime = false ->
    (deltaTime == zero) = false ->
    exists s,
      dOut this error deltaTime = S754_zero s /\
      fst (UpdateAsPD this error deltaTime) =
        Clamp (P this * error + S754_zero s)
          (- MaxOutAbs this) (MaxOutAbs this) /\
      PrevErr (snd (UpdateAsPD this error deltaTime)) = error.
Proof.
  intros this error deltaTime He Hprev Hd Hn Hz.
  assert (Herr : IsNaN error = false).
  { destruct error; try discriminate He; reflexivity. }
  pose proof (degenerate_false _ _ Hz Herr) as G.
  destruct (sub_diag_finite error He) as (s0 & Hsub).
  destruct (zero_div s0 deltaTime Hn Hz) as (s1 & Hdiv).
  destruct (finite_mul_zero (D this) s1 Hd) as (s & Hmul).
  assert (Hdout : dOut this error deltaTime = S754_zero s).
  { unfold dOut. rewrite Hprev, Hsub, Hdiv. exact Hmul. }
  exists s. rewrite (UpdateAsPD_computed this _ _ G).
  cbn [fst snd]. unfold clampOut, rawPD, pOut. rewrite Hdout.
  repeat split.
Qed.

(** With [PrevErr = 5], [P = 2], [D = 1], a second error of 5 over one
    second returns [2 * 5 = 10]. *)
Lemma steady_error_has_no_derivative_witness :
  is_finite f5 = true /\ PrevErr seasoned = f5 /\
  is_finite (D seasoned) = true /\ IsNaN f1 = false /\
  (f1 == zero) = false /\
  exists s, dOut seasoned f5 f1 = S754_zero s /\
            fst (UpdateAsPD seasoned f5 f1) = f5 + f5.
Proof.
  repeat (split; [reflexivity |]).
  destruct (steady_error_has_no_derivative seasoned f5 f1
              (eq_refl true) (eq_refl f5) (eq_refl true)
              (eq_refl false) (eq_refl false)) as (s & Hd & _ & _).
  exists s. split; [exact Hd | reflexivity].
Defined.
